(** * Market Mood Dashboard: the headline sentiment aggregator of [app.py]

    A shallow embedding of [analyze_sentiment] (app.py, lines 31-55), of the
    label derivation of the main script (lines 75-80) and of the control
    flow of that script around them (lines 59-105), with the properties the
    specification states about the aggregation.

    Conventions of the embedding.
    - A news item is a Python [dict]; it is a finite map from string keys to
      string values, and [item.get(k, '')] is a lookup with default.
    - A polarity is a Python [float].  Polarities are embedded as exact
      rationals ([Q]), the "real number" of the specification: rounding of
      binary64 arithmetic is not part of the model, and equality of two
      averages is equality of rationals ([Qeq], written [==]).
    - [TextBlob(title).sentiment.polarity] is an external call.  It is a
      parameter of the development: a function of the headline that
      either yields a polarity or raises.
    - Python exceptions are an explicit error result; statements are
      sequenced with the bind of that error monad. *)

From Stdlib Require Import QArith Qabs Lqa.
From stdpp Require Import gmap strings list.

(** ** Python results: a value, or a raised exception *)

Module Py.

(** The exceptions of the script.  Two can be raised inside
    [analyze_sentiment]: the one of the division at line 54, and whatever the
    scoring call raised (an exception of the scoring library, kept by name).
    The others belong to the main script: a failure of the market-data call
    (kept by name), [.iloc[-1]] on an empty series (line 70), and the
    selection of columns a data frame does not have (line 100). *)
Inductive exn : Type :=
| ZeroDivisionError
| ScoringError (e : string)
| FetchError (e : string)
| IndexError
| KeyError.

Inductive result (A : Type) : Type :=
| Ok (a : A)
| Raise (e : exn).
Arguments Ok {A} a.
Arguments Raise {A} e.

#[global] Instance result_ret : MRet result := λ A a, Ok a.
#[global] Instance result_bind : MBind result := λ A B k m,
  match m with
  | Ok a => k a
  | Raise e => Raise e
  end.

(** [for x in l: body], where the body updates the loop state and may
    raise: the first exception ends the loop. *)
Fixpoint for_each {S A : Type} (body : S → A → result S) (s : S) (l : list A)
  : result S :=
  match l with
  | [] => Ok s
  | x :: l' => s' ← body s x; for_each body s' l'
  end.

(** [sum(xs)]: starts from [0] and adds the elements from left to right. *)
Definition sum (xs : list Q) : Q := fold_left Qplus xs 0%Q.

(** [x / n] for a number [x] and [n = len(...)]: true division, which
    raises [ZeroDivisionError] when [n] is [0]. *)
Definition truediv (x : Q) (n : nat) : result Q :=
  match n with
  | O => Raise ZeroDivisionError
  | S _ => Ok (x / inject_Z (Z.of_nat n))%Q
  end.

End Py.
Import Py.

(** ** Data model *)

(** A news item, as [yfinance] hands it over: a dictionary. *)
Abbreviation NewsItem := (gmap string string).

(** One entry of [news_data] (line 52): the dictionary
    [{'Title': title, 'Sentiment Score': polarity, 'Link': link}]. *)
Record ScoredHeadline : Type := MkScoredHeadline {
  Title : string;
  Sentiment_Score : Q;
  Link : string
}.

(** What is kept of a [pandas.DataFrame]: its column labels and its rows. *)
Record DataFrame : Type := MkDataFrame {
  columns : list string;
  rows : list ScoredHeadline
}.

(** [pd.DataFrame()]: no column, no row. *)
Definition pd_DataFrame_empty : DataFrame :=
  {| columns := []; rows := [] |}.

(** [pd.DataFrame(news_data)] for a list of dictionaries with the keys of
    line 52: the columns are the keys of the records, in their order. *)
Definition pd_DataFrame (news_data : list ScoredHeadline) : DataFrame :=
  {| columns := match news_data with
                | [] => []
                | _ :: _ => ["Title"; "Sentiment Score"; "Link"]
                end;
     rows := news_data |}.

(** The three labels of lines 75-80. *)
Inductive Label : Type := Positive | Negative | Neutral.

(** The text the main script shows for a label. *)
Definition label_text (l : Label) : string :=
  match l with
  | Positive => "Positive 🟢"
  | Negative => "Negative 🔴"
  | Neutral => "Neutral ⚪"
  end.

(** [SentimentSummary] of the specification: the average and its label. *)
Record SentimentSummary : Type := MkSummary {
  averagePolarity : Q;
  label : Label
}.

(** The outcome of one scoring call. *)
Inductive scoring : Type :=
| Polarity (p : Q)
| Fails (e : string).

(** ** The aggregator *)

(** [item.get('title', '')] and [item.get('link', '')] (lines 43-44). *)
Definition get_title (item : NewsItem) : string := default "" (item !! "title").
Definition get_link (item : NewsItem) : string := default "" (item !! "link").

(** Lines 75-80: both comparisons are strict. *)
Definition sentiment_label (avg_score : Q) : Label :=
  if Qlt_le_dec 0.1 avg_score then Positive
  else if Qlt_le_dec avg_score (-0.1) then Negative
  else Neutral.

Section Aggregator.

(** [TextBlob(title).sentiment.polarity] (lines 48-49). *)
Variable TextBlob_polarity : string → scoring.

Definition scoreHeadline (title : string) : result Q :=
  match TextBlob_polarity title with
  | Polarity p => Ok p
  | Fails e => Raise (ScoringError e)
  end.

(** The body of the loop of lines 42-52, on the pair of the two lists the
    loop appends to. *)
Definition loop_body (acc : list Q * list ScoredHeadline) (item : NewsItem)
  : result (list Q * list ScoredHeadline) :=
  let '(sentiments, news_data) := acc in
  let title := get_title item in
  let link := get_link item in
  polarity ← scoreHeadline title;
  Ok (sentiments ++ [polarity],
      news_data ++ [{| Title := title; Sentiment_Score := polarity; Link := link |}]).

(** Lines 31-55. *)
Definition analyze_sentiment (news_list : list NewsItem) : result (Q * DataFrame) :=
  match news_list with
  | [] => Ok (0%Q, pd_DataFrame_empty)
  | _ :: _ =>
      '(sentiments, news_data) ← for_each loop_body ([], []) news_list;
      avg_sentiment ← match sentiments with
                      | [] => Ok 0%Q
                      | _ :: _ => truediv (sum sentiments) (length sentiments)
                      end;
      Ok (avg_sentiment, pd_DataFrame news_data)
  end.

(** [aggregate] of the specification: the call of line 64 followed by the
    label derivation of lines 75-80. *)
Definition aggregate (news_list : list NewsItem)
  : result (SentimentSummary * list ScoredHeadline) :=
  '(avg_score, news_df) ← analyze_sentiment news_list;
  Ok ({| averagePolarity := avg_score; label := sentiment_label avg_score |},
      rows news_df).

End Aggregator.

(** ** The main script *)

(** What the page shows, in order, with the values each call is given
    (numbers are kept as numbers: the two-decimal formatting of lines 71 and
    82 and the upper-casing of line 85 are left to the page).
    [PriceTrend] stands for the heading and the chart of lines 85-88,
    [NewsHeading] for the heading and the sentence of lines 91-92; the
    spinner of line 62 and the empty columns of line 67 show nothing that
    stays. *)
Inductive shown : Type :=
| CurrentPrice (current_price : Q)
| MarketSentiment (sentiment_label : string) (avg_score : Q)
| PriceTrend (ticker_symbol : string) (close : list Q)
| NewsHeading
| NewsTable (cells : list (string * Q * string))
| ErrorMessage (ticker_symbol : string).

(** Lines 95-97. *)
Definition color_sentiment (val : Q) : string :=
  if Qlt_le_dec 0 val then "color: green"
  else if Qlt_le_dec val 0 then "color: red"
  else "color: grey".

(** [news_df[['Title', 'Sentiment Score']]] with the style of lines 100-101:
    the selection raises [KeyError] unless the frame has both columns. *)
Definition styled_title_score (news_df : DataFrame) : result (list (string * Q * string)) :=
  if bool_decide ("Title" ∈ columns news_df ∧ "Sentiment Score" ∈ columns news_df)
  then Ok ((λ r, (Title r, Sentiment_Score r, color_sentiment (Sentiment_Score r)))
             <$> rows news_df)
  else Raise KeyError.

Section Main.

(** [TextBlob(title).sentiment.polarity], and [get_stock_data] (lines 25-29)
    as far as the script uses its result: the ['Close'] series and the news
    list, or the failure of the market-data library. *)
Variable TextBlob_polarity : string → scoring.
Variable get_stock_data : string → string → result (list Q * list NewsItem).

(** The [try] block of lines 61-102: what it has shown when it ends, and
    the exception it ends with, if any. *)
Definition try_block (ticker_symbol time_period : string)
  : list shown * option exn :=
  match get_stock_data ticker_symbol time_period with
  | Raise x => ([], Some x)
  | Ok (close, stock_news) =>
      match analyze_sentiment TextBlob_polarity stock_news with
      | Raise x => ([], Some x)
      | Ok (avg_score, news_df) =>
          match last close with
          | None => ([], Some IndexError)
          | Some current_price =>
              let page :=
                [CurrentPrice current_price;
                 MarketSentiment (label_text (sentiment_label avg_score)) avg_score;
                 PriceTrend ticker_symbol close;
                 NewsHeading] in
              match styled_title_score news_df with
              | Raise x => (page, Some x)
              | Ok cells => (page ++ [NewsTable cells], None)
              end
          end
      end
  end.

(** Lines 59-105: nothing for an empty ticker; otherwise the [try] block,
    and the one message of line 105 after whatever it raised. *)
Definition main (ticker_symbol time_period : string) : list shown :=
  if String.eqb ticker_symbol "" then []
  else
    match try_block ticker_symbol time_period with
    | (page, None) => page
    | (page, Some _) => page ++ [ErrorMessage ticker_symbol]
    end.

End Main.

(** ** The market-data call *)

Section MarketData.

(** [yf.Ticker(symbol).history(period=period)], as far as the script uses
    it (the ['Close'] series), and [yf.Ticker(symbol).news]: two external
    calls, each of which returns or raises. *)
Variable Ticker_history : string → string → result (list Q).
Variable Ticker_news : string → result (list NewsItem).

(** Lines 25-29: the history is asked first, then the news. *)
Definition get_stock_data (symbol period : string)
  : result (list Q * list NewsItem) :=
  data ← Ticker_history symbol period;
  news ← Ticker_news symbol;
  Ok (data, news).

End MarketData.

(** ** What the specification compares the code with *)

(** The arithmetic mean [(p1 + ... + pn) / n]. *)
Definition mean (ps : list Q) : Q :=
  (foldr Qplus 0 ps / inject_Z (Z.of_nat (length ps)))%Q.

(** The scoring capability assigns the polarities [ps] to the headlines of
    [items], one by one. *)
Definition assigns (score : string → scoring) (items : list NewsItem) (ps : list Q)
  : Prop :=
  Forall2 (λ item p, score (get_title item) = Polarity p) items ps.

(** The record the loop builds for an item whose headline has polarity [p]. *)
Definition scored (item : NewsItem) (p : Q) : ScoredHeadline :=
  {| Title := get_title item; Sentiment_Score := p; Link := get_link item |}.

(** The labels in the order of the averages that give them, and the label
    of the opposite average. *)
Definition label_rank (l : Label) : Z :=
  match l with
  | Negative => -1
  | Neutral => 0
  | Positive => 1
  end.

Definition opposite_label (l : Label) : Label :=
  match l with
  | Negative => Positive
  | Neutral => Neutral
  | Positive => Negative
  end.

(** The parts of the page that come from the news, as opposed to the ones
    that come from the price series. *)
Definition about_news (s : shown) : bool :=
  match s with
  | CurrentPrice _ | PriceTrend _ _ => false
  | MarketSentiment _ _ | NewsHeading | NewsTable _ | ErrorMessage _ => true
  end.

(** The cell of the table of lines 99-102 for a headline of polarity [p]. *)
Definition table_cell (item : NewsItem) (p : Q) : string * Q * string :=
  (get_title item, p, color_sentiment p).

(** A small scoring function and a few news items, for the examples below. *)
Module Demo.

Definition beats : NewsItem :=
  <["title" := "Company beats earnings expectations"]>
    (<["link" := "https://example.org/a"]> ∅).
Definition plunges : NewsItem :=
  <["title" := "Stock plunges amid fraud concerns"]> ∅.
Definition untitled : NewsItem :=
  <["publisher" := "Wire"]> ∅.
Definition garbled : NewsItem :=
  <["title" := "corrupt"]> ∅.
Definition headline (title : string) : NewsItem :=
  <["title" := title]> ∅.

Definition lexicon (title : string) : scoring :=
  if String.eqb title "Company beats earnings expectations" then Polarity 0.6
  else if String.eqb title "Stock plunges amid fraud concerns" then Polarity (-0.6)
  else if String.eqb title "Upbeat outlook" then Polarity 0.5
  else if String.eqb title "corrupt" then Fails "UnicodeDecodeError"
  else Polarity 0.


Definition history (symbol period : string) : result (list Q) :=
  if String.eqb symbol "TSLA"
  then Ok (if String.eqb period "1mo" then [250.5; 251]%Q else [198; 250.5; 251]%Q)
  else if String.eqb symbol "NONE" then Ok []
  else Raise (FetchError "HTTPError").

Definition news (symbol : string) : result (list NewsItem) :=
  if String.eqb symbol "TSLA" then Ok [beats; plunges; headline "Upbeat outlook"]
  else Ok [].

End Demo.

(** ** The loop of lines 42-52 *)

Section Loop.

Variable score : string → scoring.

Lemma loop_body_polarity sentiments news_data item p :
  score (get_title item) = Polarity p →
  loop_body score (sentiments, news_data) item
  = Ok (sentiments ++ [p], news_data ++ [scored item p]).
Proof.
  intros Hp. unfold loop_body, scoreHeadline. rewrite Hp. reflexivity.
Qed.

Lemma loop_body_fails acc item e :
  score (get_title item) = Fails e →
  loop_body score acc item = Raise (ScoringError e).
Proof.
  intros He. destruct acc as [sentiments news_data].
  unfold loop_body, scoreHeadline. rewrite He. reflexivity.
Qed.

(** When every headline gets a polarity, the loop ends with the
    polarities and the records appended, in input order. *)
Lemma for_each_assigns items ps :
  assigns score items ps →
  ∀ sentiments news_data,
    for_each (loop_body score) (sentiments, news_data) items
    = Ok (sentiments ++ ps, news_data ++ zip_with scored items ps).
Proof.
  induction 1 as [|item p items ps Hp _ IH]; intros sentiments news_data.
  - cbn. by rewrite !app_nil_r.
  - cbn [for_each]. rewrite (loop_body_polarity _ _ _ _ Hp). cbn.
    rewrite IH. by rewrite <- !app_assoc.
Qed.

(** Conversely, a loop that ends normally has scored every headline. *)
Lemma for_each_Ok_inv items :
  ∀ sentiments news_data sentiments' news_data',
    for_each (loop_body score) (sentiments, news_data) items
    = Ok (sentiments', news_data') →
    ∃ ps, assigns score items ps
          ∧ sentiments' = sentiments ++ ps
          ∧ news_data' = news_data ++ zip_with scored items ps.
Proof.
  induction items as [|item items IH]; intros s d s' d' Hrun.
  - cbn in Hrun. injection Hrun as <- <-. exists []. split; [constructor|].
    by rewrite !app_nil_r.
  - cbn [for_each] in Hrun.
    destruct (score (get_title item)) as [p|e] eqn:Hp.
    + rewrite (loop_body_polarity _ _ _ _ Hp) in Hrun. cbn in Hrun.
      apply IH in Hrun as (ps & Hps & -> & ->).
      exists (p :: ps). split; [by constructor|].
      by rewrite <- !app_assoc.
    + rewrite (loop_body_fails _ _ _ Hp) in Hrun. discriminate.
Qed.

(** The first headline the scoring call fails on ends the loop with that
    failure. *)
Lemma for_each_first_failure before ps item e after acc :
  assigns score before ps →
  score (get_title item) = Fails e →
  for_each (loop_body score) acc (before ++ item :: after)
  = Raise (ScoringError e).
Proof.
  intros Hps He. revert acc.
  induction Hps as [|item' p before ps Hp _ IH]; intros [s d].
  - cbn [app for_each]. by rewrite (loop_body_fails _ _ _ He).
  - cbn [app for_each]. rewrite (loop_body_polarity _ _ _ _ Hp). cbn.
    apply IH.
Qed.

(** Either every headline of a list gets a polarity, or there is a first
    one the scoring call fails on. *)
Lemma assigns_or_fails items :
  (∃ ps, assigns score items ps)
  ∨ (∃ before ps item e after,
       items = before ++ item :: after
       ∧ assigns score before ps
       ∧ score (get_title item) = Fails e).
Proof.
  induction items as [|item items IH].
  - left. exists []. constructor.
  - destruct (score (get_title item)) as [p|e] eqn:Hp.
    + destruct IH as [[ps Hps] | (before & ps & item' & e & after & -> & Hps & He)].
      * left. exists (p :: ps). by constructor.
      * right. exists (item :: before), (p :: ps), item', e, after.
        repeat split; [by constructor | done].
    + right. exists [], [], item, e, items. repeat split; [constructor | done].
Qed.

(** The value [analyze_sentiment] returns when every headline gets a
    polarity. *)
Lemma analyze_sentiment_assigns items ps :
  assigns score items ps →
  analyze_sentiment score items
  = Ok (match items with
        | [] => 0%Q
        | _ :: _ => (sum ps / inject_Z (Z.of_nat (length ps)))%Q
        end,
        match items with
        | [] => pd_DataFrame_empty
        | _ :: _ => pd_DataFrame (zip_with scored items ps)
        end).
Proof.
  intros Hps. destruct Hps as [|item p items ps Hp Hps]; [reflexivity|].
  assert (Hall : assigns score (item :: items) (p :: ps)) by by constructor.
  unfold analyze_sentiment.
  rewrite (for_each_assigns _ _ Hall). reflexivity.
Qed.

Lemma analyze_sentiment_Ok_inv items avg df :
  analyze_sentiment score items = Ok (avg, df) →
  ∃ ps, assigns score items ps.
Proof.
  destruct (assigns_or_fails items)
    as [Hps | (before & ps & item & e & after & -> & Hps & He)]; [done|].
  intros Hrun. exfalso. revert Hrun. unfold analyze_sentiment.
  destruct (before ++ item :: after) as [|item0 rest] eqn:Heq.
  - by destruct before.
  - rewrite <- Heq. rewrite (for_each_first_failure _ _ _ _ _ _ Hps He).
    discriminate.
Qed.

End Loop.

(** ** Sums and means of rationals *)

Lemma fold_left_Qplus_foldr (ps : list Q) :
  ∀ a : Q, (fold_left Qplus ps a == a + foldr Qplus 0 ps)%Q.
Proof.
  induction ps as [|p ps IH]; intros a; cbn.
  - ring.
  - rewrite IH. ring.
Qed.

(** [sum] adds from the left, the mean of the specification is written
    from the right: the two sums are the same number. *)
Lemma sum_foldr (ps : list Q) : (sum ps == foldr Qplus 0 ps)%Q.
Proof. unfold sum. rewrite fold_left_Qplus_foldr. ring. Qed.


Lemma inject_length_cons (p : Q) (ps : list Q) :
  (inject_Z (Z.of_nat (length (p :: ps))) == inject_Z (Z.of_nat (length ps)) + 1)%Q.
Proof.
  cbn [length]. rewrite Nat2Z.inj_succ, <- Z.add_1_r, inject_Z_plus. reflexivity.
Qed.

Lemma inject_length_pos (p : Q) (ps : list Q) :
  (0 < inject_Z (Z.of_nat (length (p :: ps))))%Q.
Proof.
  change 0%Q with (inject_Z 0). rewrite <- Zlt_Qlt. cbn [length]. lia.
Qed.

(** A sum of [n] numbers of [[-1, 1]] lies in [[-n, n]]. *)
Lemma foldr_Qplus_bounds (ps : list Q) :
  Forall (λ p, (-1 <= p)%Q ∧ (p <= 1)%Q) ps →
  (- inject_Z (Z.of_nat (length ps)) <= foldr Qplus 0 ps)%Q
  ∧ (foldr Qplus 0 ps <= inject_Z (Z.of_nat (length ps)))%Q.
Proof.
  induction 1 as [|p ps [Hlo Hhi] _ [IHlo IHhi]].
  - cbn. split; apply Qle_refl.
  - rewrite inject_length_cons. cbn [foldr]. split; lra.
Qed.

(** The mean of numbers of [[-1, 1]] lies in [[-1, 1]]. *)
Lemma mean_bounds (p : Q) (ps : list Q) :
  Forall (λ p, (-1 <= p)%Q ∧ (p <= 1)%Q) (p :: ps) →
  (-1 <= mean (p :: ps))%Q ∧ (mean (p :: ps) <= 1)%Q.
Proof.
  intros Hall. destruct (foldr_Qplus_bounds _ Hall) as [Hlo Hhi].
  pose proof (inject_length_pos p ps) as Hpos. unfold mean. split.
  - apply Qle_shift_div_l; [done | lra].
  - apply Qle_shift_div_r; [done | lra].
Qed.

(** What line 54 computes is the mean. *)
Lemma sum_div_mean (ps : list Q) :
  (sum ps / inject_Z (Z.of_nat (length ps)) == mean ps)%Q.
Proof. unfold mean. by rewrite sum_foldr. Qed.


(** ** The label *)

(** The label depends on the number, not on the fraction that denotes it. *)
#[global] Instance sentiment_label_Proper : Proper (Qeq ==> eq) sentiment_label.
Proof.
  intros a b Hab. unfold sentiment_label.
  destruct (Qlt_le_dec 0.1 a) as [Ha|Ha], (Qlt_le_dec 0.1 b) as [Hb|Hb];
    try reflexivity; try (exfalso; lra).
  destruct (Qlt_le_dec a (-0.1)) as [Ha'|Ha'], (Qlt_le_dec b (-0.1)) as [Hb'|Hb'];
    try reflexivity; exfalso; lra.
Qed.

Lemma sentiment_label_Positive (a : Q) :
  sentiment_label a = Positive ↔ (0.1 < a)%Q.
Proof.
  unfold sentiment_label.
  destruct (Qlt_le_dec 0.1 a) as [Ha|Ha]; [done|].
  destruct (Qlt_le_dec a (-0.1)) as [Ha'|Ha']; (split; [discriminate | lra]).
Qed.

Lemma sentiment_label_Negative (a : Q) :
  sentiment_label a = Negative ↔ (a < -0.1)%Q.
Proof.
  unfold sentiment_label.
  destruct (Qlt_le_dec 0.1 a) as [Ha|Ha]; [split; [discriminate | lra]|].
  destruct (Qlt_le_dec a (-0.1)) as [Ha'|Ha']; [done|].
  split; [discriminate | lra].
Qed.

Lemma sentiment_label_Neutral (a : Q) :
  sentiment_label a = Neutral ↔ (-0.1 <= a)%Q ∧ (a <= 0.1)%Q.
Proof.
  unfold sentiment_label.
  destruct (Qlt_le_dec 0.1 a) as [Ha|Ha]; [split; [discriminate | lra]|].
  destruct (Qlt_le_dec a (-0.1)) as [Ha'|Ha']; [split; [discriminate | lra]|].
  done.
Qed.

(** ** The aggregate and the mean *)






(** C2. On the empty list [analyze_sentiment] returns normally, whatever the
    scoring capability does: the average is the number [0] itself, its label
    is [Neutral], and the data frame has no row; so has the aggregate. *)
Theorem analyze_sentiment_empty score :
  analyze_sentiment score [] = Ok (0%Q, pd_DataFrame_empty)
  ∧ rows pd_DataFrame_empty = []
  ∧ sentiment_label 0 = Neutral
  ∧ aggregate score [] = Ok ({| averagePolarity := 0; label := Neutral |}, []).
Proof. repeat split. Qed.

(** C3. The label is [Positive] exactly when the average is above [0.1],
    [Negative] exactly when it is below [-0.1], and [Neutral] otherwise; the
    two bounds themselves give [Neutral], [0.1000001] gives [Positive] and
    [-0.1000001] gives [Negative]. *)
Theorem sentiment_label_thresholds :
  (∀ a : Q,
     (sentiment_label a = Positive ↔ (0.1 < a)%Q)
     ∧ (sentiment_label a = Negative ↔ (a < -0.1)%Q)
     ∧ (sentiment_label a = Neutral ↔ ¬ (0.1 < a)%Q ∧ ¬ (a < -0.1)%Q))
  ∧ sentiment_label 0.1 = Neutral
  ∧ sentiment_label (-0.1) = Neutral
  ∧ sentiment_label 0.1000001 = Positive
  ∧ sentiment_label (-0.1000001) = Negative.
Proof.
  split; [|repeat split].
  intros a. split; [apply sentiment_label_Positive|].
  split; [apply sentiment_label_Negative|].
  rewrite sentiment_label_Neutral. split.
  - intros [Hlo Hhi]. split; intros Hlt; lra.
  - intros [Hhi Hlo]. split; lra.
Qed.



(** C9. When the polarities the scoring capability gives to the headlines
    lie in [[-1, 1]], [analyze_sentiment] returns an average that lies in
    [[-1, 1]]; on the empty list it is [0]. *)
Theorem analyze_sentiment_range score (items : list NewsItem) (ps : list Q) :
  assigns score items ps →
  Forall (λ p, (-1 <= p)%Q ∧ (p <= 1)%Q) ps →
  ∃ avg df,
    analyze_sentiment score items = Ok (avg, df)
    ∧ (-1 <= avg)%Q ∧ (avg <= 1)%Q
    ∧ (items = [] → avg = 0%Q).
Proof.
  intros Hps Hrange. rewrite (analyze_sentiment_assigns _ _ _ Hps).
  eexists _, _. split; [reflexivity|].
  destruct Hps as [|item p items ps Hp Hps].
  - repeat split; lra.
  - cbv iota. destruct (mean_bounds _ _ Hrange) as [Hlo Hhi].
    pose proof (sum_div_mean (p :: ps)) as Hmean.
    repeat split; [by rewrite Hmean..|done].
Qed.

Lemma analyze_sentiment_range_witness :
  ∃ avg df,
    analyze_sentiment Demo.lexicon [Demo.beats; Demo.plunges; Demo.untitled]
    = Ok (avg, df)
    ∧ (-1 <= avg)%Q ∧ (avg <= 1)%Q.
Proof.
  destruct (analyze_sentiment_range Demo.lexicon
              [Demo.beats; Demo.plunges; Demo.untitled] [0.6; -0.6; 0]%Q)
    as (avg & df & Hrun & Hlo & Hhi & _).
  - repeat constructor.
  - repeat constructor; vm_compute; discriminate.
  - exists avg, df. repeat split; assumption.
Defined.

(** ** Failures of the scoring capability *)

Lemma analyze_sentiment_first_failure score before ps item e after :
  assigns score before ps →
  score (get_title item) = Fails e →
  analyze_sentiment score (before ++ item :: after) = Raise (ScoringError e).
Proof.
  intros Hps He. unfold analyze_sentiment.
  destruct (before ++ item :: after) as [|item0 rest] eqn:Heq.
  - by destruct before.
  - rewrite <- Heq, (for_each_first_failure _ _ _ _ _ _ _ Hps He). reflexivity.
Qed.


(** [analyze_sentiment] raises nothing of its own: whatever it ends with
    is the failure of the scoring call on one of the headlines. *)
Lemma analyze_sentiment_Raise_inv score (items : list NewsItem) x :
  analyze_sentiment score items = Raise x →
  ∃ item e, item ∈ items ∧ score (get_title item) = Fails e ∧ x = ScoringError e.
Proof.
  destruct (assigns_or_fails score items)
    as [[ps Hps] | (before & ps & item & e & after & -> & Hps & He)].
  - by rewrite (analyze_sentiment_assigns _ _ _ Hps).
  - rewrite (analyze_sentiment_first_failure _ _ _ _ _ after Hps He).
    intros [= <-]. exists item, e.
    split; [apply elem_of_app; right; apply list_elem_of_here | done].
Qed.



(** ** What the result depends on *)

Lemma for_each_ext {S A : Type} (f g : S → A → result S) (l l' : list A) :
  Forall2 (λ x y, ∀ s, f s x = g s y) l l' →
  ∀ s, for_each f s l = for_each g s l'.
Proof.
  induction 1 as [|x y l l' Hxy _ IH]; intros s; [reflexivity|].
  cbn. rewrite Hxy. destruct (g s y) as [s'|e]; cbn; [apply IH | reflexivity].
Qed.

(** [analyze_sentiment] reads two keys of each item and asks the scoring
    capability about the titles: lists that agree on these, under scoring
    functions that agree on those titles, give the same result. *)
Lemma analyze_sentiment_ext score1 score2 (items items' : list NewsItem) :
  Forall2 (λ a b, get_title a = get_title b
                  ∧ get_link a = get_link b
                  ∧ score1 (get_title a) = score2 (get_title b)) items items' →
  analyze_sentiment score1 items = analyze_sentiment score2 items'.
Proof.
  intros Hall.
  assert (Hloop : ∀ acc, for_each (loop_body score1) acc items
                         = for_each (loop_body score2) acc items').
  { apply for_each_ext. eapply Forall2_impl; [exact Hall|].
    intros a b (Ht & Hl & Hs) [s d]. unfold loop_body, scoreHeadline.
    by rewrite Hs, Ht, Hl. }
  unfold analyze_sentiment.
  destruct Hall as [|a b items items' Hab Hall]; [reflexivity|].
  by rewrite Hloop.
Qed.

Lemma get_title_insert_link (item : NewsItem) (v : string) :
  get_title (<["link" := v]> item) = get_title item.
Proof. unfold get_title. by rewrite lookup_insert_ne. Qed.

Lemma get_link_insert_title (item : NewsItem) (v : string) :
  get_link (<["title" := v]> item) = get_link item.
Proof. unfold get_link. by rewrite lookup_insert_ne. Qed.

Lemma get_title_insert_title (item : NewsItem) (v : string) :
  get_title (<["title" := v]> item) = v.
Proof. unfold get_title. by rewrite lookup_insert_eq. Qed.

Lemma get_link_insert_link (item : NewsItem) (v : string) :
  get_link (<["link" := v]> item) = v.
Proof. unfold get_link. by rewrite lookup_insert_eq. Qed.

Lemma analyze_sentiment_replace score before item item' after :
  get_title item = get_title item' →
  get_link item = get_link item' →
  analyze_sentiment score (before ++ item :: after)
  = analyze_sentiment score (before ++ item' :: after).
Proof.
  intros Ht Hl. apply analyze_sentiment_ext.
  apply Forall2_app; [|constructor; [by rewrite Ht, Hl|]];
    by apply Forall_Forall2_diag, Forall_forall.
Qed.

(** C5. An item without a ['title'] key is scored as the item with the
    title [""]: the result is that of the list in which the key is set to
    the empty string, and likewise for a missing ['link'].  When the scoring
    capability gives [""] a polarity, that polarity enters the mean and the
    record of the item carries the title [""]; the missing key raises
    nothing. *)
Theorem analyze_sentiment_missing_title score (before : list NewsItem)
    (item : NewsItem) (after : list NewsItem) :
  (item !! "title" = None →
     get_title item = ""
     ∧ analyze_sentiment score (before ++ item :: after)
       = analyze_sentiment score (before ++ <["title" := ""]> item :: after))
  ∧ (item !! "link" = None →
       get_link item = ""
       ∧ analyze_sentiment score (before ++ item :: after)
         = analyze_sentiment score (before ++ <["link" := ""]> item :: after))
  ∧ (item !! "title" = None →
       ∀ (ps1 : list Q) (p0 : Q) (ps2 : list Q),
         assigns score before ps1 →
         score "" = Polarity p0 →
         assigns score after ps2 →
         ∃ avg df,
           analyze_sentiment score (before ++ item :: after) = Ok (avg, df)
           ∧ (avg == mean (ps1 ++ p0 :: ps2))%Q
           ∧ rows df !! length before
             = Some {| Title := ""; Sentiment_Score := p0; Link := get_link item |}).
Proof.
  assert (Htitle : item !! "title" = None → get_title item = "").
  { intros Hnone. unfold get_title. by rewrite Hnone. }
  assert (Hlink : item !! "link" = None → get_link item = "").
  { intros Hnone. unfold get_link. by rewrite Hnone. }
  split; [|split].
  - intros Hnone. split; [by apply Htitle|].
    apply analyze_sentiment_replace.
    + by rewrite get_title_insert_title, Htitle.
    + by rewrite get_link_insert_title.
  - intros Hnone. split; [by apply Hlink|].
    apply analyze_sentiment_replace.
    + by rewrite get_title_insert_link.
    + by rewrite get_link_insert_link, Hlink.
  - intros Hnone ps1 p0 ps2 Hps1 Hp0 Hps2.
    assert (Hall : assigns score (before ++ item :: after) (ps1 ++ p0 :: ps2)).
    { apply Forall2_app; [done|]. constructor; [|done]. by rewrite Htitle. }
    rewrite (analyze_sentiment_assigns _ _ _ Hall).
    destruct (before ++ item :: after) as [|item0 rest] eqn:Heq;
      [by destruct before|].
    rewrite <- Heq. eexists _, _. split; [reflexivity|].
    split; [apply sum_div_mean|]. cbn [rows pd_DataFrame].
    rewrite zip_with_app by apply (Forall2_length _ _ _ Hps1). cbn [zip_with].
    rewrite list_lookup_middle
      by (symmetry; apply (length_zip_with_same_l _ _ _ _ Hps1)).
    unfold scored. by rewrite Htitle.
Qed.

Lemma analyze_sentiment_missing_title_witness :
  (analyze_sentiment Demo.lexicon ([Demo.beats] ++ Demo.untitled :: [Demo.plunges])
   = analyze_sentiment Demo.lexicon
       ([Demo.beats] ++ <["title" := ""]> Demo.untitled :: [Demo.plunges]))
  ∧ (analyze_sentiment Demo.lexicon ([Demo.beats] ++ Demo.untitled :: [Demo.plunges])
     = analyze_sentiment Demo.lexicon
         ([Demo.beats] ++ <["link" := ""]> Demo.untitled :: [Demo.plunges]))
  ∧ ∃ avg df,
      analyze_sentiment Demo.lexicon ([Demo.beats] ++ Demo.untitled :: [Demo.plunges])
      = Ok (avg, df)
      ∧ (avg == mean ([0.6] ++ 0 :: [-0.6]))%Q.
Proof.
  destruct (analyze_sentiment_missing_title Demo.lexicon
              [Demo.beats] Demo.untitled [Demo.plunges]) as (Ht & Hl & Hmean).
  split; [|split].
  - apply Ht. reflexivity.
  - apply Hl. reflexivity.
  - destruct (Hmean eq_refl [0.6]%Q 0%Q [-0.6]%Q) as (avg & df & Hrun & Havg & _).
    + repeat constructor.
    + reflexivity.
    + repeat constructor.
    + exists avg, df. split; assumption.
Defined.





(** ** The division of line 54 *)

Lemma for_each_length score (items : list NewsItem) sentiments news_data :
  for_each (loop_body score) ([], []) items = Ok (sentiments, news_data) →
  length sentiments = length items.
Proof.
  intros Hrun. apply for_each_Ok_inv in Hrun as (ps & Hps & -> & _).
  cbn. symmetry. apply (Forall2_length _ _ _ Hps).
Qed.

(** C10. The division of the mean never divides by zero: whatever the input
    list and the scoring capability, [analyze_sentiment] does not end with
    [ZeroDivisionError]; when the loop over a non-empty input ends, the list
    of polarities it built is as long as the input, hence not empty; and
    under a scoring capability that never fails the function returns a
    value on every input list. *)
Theorem analyze_sentiment_no_ZeroDivisionError score (items : list NewsItem) :
  analyze_sentiment score items ≠ Raise ZeroDivisionError
  ∧ (∀ sentiments news_data,
       for_each (loop_body score) ([], []) items = Ok (sentiments, news_data) →
       length sentiments = length items ∧ (items ≠ [] → sentiments ≠ []))
  ∧ ((∀ title, ∃ p, score title = Polarity p) →
     ∃ avg df, analyze_sentiment score items = Ok (avg, df)).
Proof.
  split; [|split].
  - destruct (assigns_or_fails score items)
      as [[ps Hps] | (before & ps & item & e & after & -> & Hps & He)].
    + by rewrite (analyze_sentiment_assigns _ _ _ Hps).
    + by rewrite (analyze_sentiment_first_failure _ _ _ _ _ after Hps He).
  - intros sentiments news_data Hrun.
    pose proof (for_each_length _ _ _ _ Hrun) as Hlen. split; [done|].
    intros Hne ->. by destruct items.
  - intros Htotal.
    destruct (assigns_or_fails score items)
      as [[ps Hps] | (before & ps & item & e & after & -> & Hps & He)].
    + rewrite (analyze_sentiment_assigns _ _ _ Hps). by eexists _, _.
    + destruct (Htotal (get_title item)) as [p Hp]. congruence.
Qed.

Lemma analyze_sentiment_no_ZeroDivisionError_witness :
  ∃ avg df,
    analyze_sentiment (λ _, Polarity 0.25) [Demo.beats; Demo.garbled] = Ok (avg, df).
Proof.
  destruct (analyze_sentiment_no_ZeroDivisionError
              (λ _, Polarity 0.25%Q) [Demo.beats; Demo.garbled]) as (_ & _ & Hreturns).
  apply Hreturns. intros title. by exists 0.25%Q.
Defined.

(** ** The scenarios of the specification, run on the embedding *)

(** Two headlines with the polarities [0.6] and [-0.6]: the average is the
    number zero and the label is [Neutral]. *)
Example scenario_opposite_headlines :
  ∃ summary records,
    aggregate Demo.lexicon [Demo.beats; Demo.plunges] = Ok (summary, records)
    ∧ (averagePolarity summary == 0)%Q
    ∧ label summary = Neutral.
Proof. eexists _, _. split; [reflexivity|]. split; reflexivity. Qed.

(** A single headline with the polarity [0.5]: the average is [0.5] and the
    label is [Positive]. *)
Example scenario_single_headline :
  ∃ summary records,
    aggregate Demo.lexicon [Demo.headline "Upbeat outlook"] = Ok (summary, records)
    ∧ (averagePolarity summary == 0.5)%Q
    ∧ label summary = Positive.
Proof. eexists _, _. split; [reflexivity|]. split; reflexivity. Qed.

(** A failure on the second headline: the records of the first one are
    lost with it. *)
Example scenario_scoring_failure :
  aggregate Demo.lexicon [Demo.beats; Demo.garbled; Demo.plunges]
  = Raise (ScoringError "UnicodeDecodeError").
Proof. reflexivity. Qed.

(** ** The main script around the aggregation *)

Section MainFacts.

Variable score : string → scoring.
Variable get_stock_data : string → string → result (list Q * list NewsItem).
Variables ticker_symbol time_period : string.
Hypothesis ticker_given : ticker_symbol ≠ "".

Lemma main_try_block :
  main score get_stock_data ticker_symbol time_period
  = match try_block score get_stock_data ticker_symbol time_period with
    | (page, None) => page
    | (page, Some _) => page ++ [ErrorMessage ticker_symbol]
    end.
Proof.
  unfold main. destruct (String.eqb_spec ticker_symbol "") as [Heq|_]; done.
Qed.

(** A failure of the market-data call: the message of line 105, alone. *)
Lemma main_fetch_failure x :
  get_stock_data ticker_symbol time_period = Raise x →
  main score get_stock_data ticker_symbol time_period = [ErrorMessage ticker_symbol].
Proof. intros Hfetch. rewrite main_try_block. unfold try_block. by rewrite Hfetch. Qed.

(** A failure of the scoring call inside [analyze_sentiment] reaches the
    [except] clause of line 104: the page shows the same message, alone, and
    no sentiment at all. *)
Lemma main_scoring_failure close stock_news e :
  get_stock_data ticker_symbol time_period = Ok (close, stock_news) →
  analyze_sentiment score stock_news = Raise (ScoringError e) →
  main score get_stock_data ticker_symbol time_period = [ErrorMessage ticker_symbol].
Proof.
  intros Hfetch Hrun. rewrite main_try_block. unfold try_block.
  by rewrite Hfetch, Hrun.
Qed.

(** With prices and an empty news list the page shows the price, the label
    of the average [0] and the chart; the empty data frame of line 37 has no
    ['Title'] column, so the table of line 100 is replaced by the message of
    line 105. *)
Lemma main_no_news close current_price :
  get_stock_data ticker_symbol time_period = Ok (close, []) →
  last close = Some current_price →
  main score get_stock_data ticker_symbol time_period
  = [CurrentPrice current_price;
     MarketSentiment (label_text Neutral) 0;
     PriceTrend ticker_symbol close;
     NewsHeading;
     ErrorMessage ticker_symbol].
Proof.
  intros Hfetch Hlast. rewrite main_try_block. unfold try_block.
  rewrite Hfetch. cbn [analyze_sentiment]. by rewrite Hlast.
Qed.

End MainFacts.

(** ** More on [analyze_sentiment] *)



(** X1. [analyze_sentiment] ends with an exception exactly when the scoring
    call fails on some headline, and the exception is then the failure on
    the first such headline, every headline before it having been scored. *)
Theorem analyze_sentiment_Raise_iff score (items : list NewsItem) (x : exn) :
  analyze_sentiment score items = Raise x
  ↔ ∃ before ps item e after,
      items = before ++ item :: after
      ∧ assigns score before ps
      ∧ score (get_title item) = Fails e
      ∧ x = ScoringError e.
Proof.
  split.
  - destruct (assigns_or_fails score items)
      as [[ps Hps] | (before & ps & item & e & after & -> & Hps & He)].
    + by rewrite (analyze_sentiment_assigns _ _ _ Hps).
    + rewrite (analyze_sentiment_first_failure _ _ _ _ _ after Hps He).
      intros [= <-]. by exists before, ps, item, e, after.
  - intros (before & ps & item & e & after & -> & Hps & He & ->).
    by apply analyze_sentiment_first_failure with ps.
Qed.

(** X2. Only the keys ['title'] and ['link'] of a news item are read:
    setting or removing any other key, in every item of the list, changes
    nothing in what [analyze_sentiment] returns or raises. *)
Theorem analyze_sentiment_other_keys score (items : list NewsItem) (k v : string) :
  k ≠ "title" →
  k ≠ "link" →
  analyze_sentiment score (<[k := v]> <$> items) = analyze_sentiment score items
  ∧ analyze_sentiment score (delete k <$> items) = analyze_sentiment score items.
Proof.
  intros Htitle Hlink. split; apply analyze_sentiment_ext, Forall2_fmap_l;
    apply Forall_Forall2_diag, Forall_forall; intros item _; cbn;
    unfold get_title, get_link.
  - by rewrite !lookup_insert_ne.
  - by rewrite !lookup_delete_ne.
Qed.

Lemma analyze_sentiment_other_keys_witness :
  analyze_sentiment Demo.lexicon
    (<["publisher" := "Wire"]> <$> [Demo.beats; Demo.garbled])
  = analyze_sentiment Demo.lexicon [Demo.beats; Demo.garbled]
  ∧ analyze_sentiment Demo.lexicon
      (delete "publisher" <$> [Demo.untitled; Demo.plunges])
    = analyze_sentiment Demo.lexicon [Demo.untitled; Demo.plunges].
Proof.
  split.
  - apply (analyze_sentiment_other_keys Demo.lexicon
             [Demo.beats; Demo.garbled] "publisher" "Wire"); discriminate.
  - apply (analyze_sentiment_other_keys Demo.lexicon
             [Demo.untitled; Demo.plunges] "publisher" "Wire"); discriminate.
Defined.

Lemma zip_with_scored_link (items : list NewsItem) (ps : list Q) (v : string) :
  zip_with scored (<["link" := v]> <$> items) ps
  = (λ r, {| Title := Title r; Sentiment_Score := Sentiment_Score r; Link := v |})
      <$> zip_with scored items ps.
Proof.
  revert ps. induction items as [|item items IH]; intros [|p ps]; [done..|].
  cbn. rewrite IH. f_equal. unfold scored.
  by rewrite get_title_insert_link, get_link_insert_link.
Qed.

(** X3. The links do not enter the score: with another link in every item,
    [analyze_sentiment] returns the very same average, and the same rows
    but for their [Link] field. *)
Theorem analyze_sentiment_link_irrelevant score (items : list NewsItem)
    (v : string) (avg : Q) (df : DataFrame) :
  analyze_sentiment score items = Ok (avg, df) →
  ∃ df',
    analyze_sentiment score (<["link" := v]> <$> items) = Ok (avg, df')
    ∧ rows df'
      = (λ r, {| Title := Title r; Sentiment_Score := Sentiment_Score r; Link := v |})
          <$> rows df.
Proof.
  intros Hrun. destruct (analyze_sentiment_Ok_inv _ _ _ _ Hrun) as [ps Hps].
  assert (Hps' : assigns score (<["link" := v]> <$> items) ps).
  { apply Forall2_fmap_l. eapply Forall2_impl; [exact Hps|].
    intros item p Hp. cbn. by rewrite get_title_insert_link. }
  rewrite (analyze_sentiment_assigns _ _ _ Hps) in Hrun.
  rewrite (analyze_sentiment_assigns _ _ _ Hps').
  destruct Hps as [|item p items ps Hp Hps]; injection Hrun as <- <-.
  - by exists pd_DataFrame_empty.
  - eexists. split; [reflexivity|]. cbn [rows pd_DataFrame].
    apply (zip_with_scored_link (item :: items) (p :: ps)).
Qed.

Lemma analyze_sentiment_link_irrelevant_witness :
  ∃ df',
    analyze_sentiment Demo.lexicon
      (<["link" := "https://example.org/b"]> <$> [Demo.beats; Demo.untitled])
    = Ok (sum [0.6; 0] / inject_Z 2, df')%Q.
Proof.
  destruct (analyze_sentiment_link_irrelevant Demo.lexicon
              [Demo.beats; Demo.untitled] "https://example.org/b"
              (sum [0.6; 0] / inject_Z 2)%Q
              (pd_DataFrame [scored Demo.beats 0.6; scored Demo.untitled 0]))
    as (df' & Hrun & _).
  - reflexivity.
  - by exists df'.
Defined.














(** ** More on the label and on the colours *)

(** X7. The label follows the average: a larger average never gets a lower
    label ([Negative] below [Neutral] below [Positive]). *)
Theorem sentiment_label_monotone (a b : Q) :
  (a <= b)%Q →
  (label_rank (sentiment_label a) ≤ label_rank (sentiment_label b))%Z.
Proof.
  intros Hab. unfold sentiment_label.
  destruct (Qlt_le_dec 0.1 a), (Qlt_le_dec 0.1 b),
    (Qlt_le_dec a (-0.1)), (Qlt_le_dec b (-0.1));
    cbn; try lia; exfalso; lra.
Qed.

Lemma sentiment_label_monotone_witness :
  (label_rank (sentiment_label (-0.3)) ≤ label_rank (sentiment_label 0.05))%Z.
Proof.
  apply (sentiment_label_monotone (-0.3) 0.05). vm_compute. discriminate.
Defined.

(** X8. The two thresholds are symmetric: the opposite average gets the
    opposite label. *)
Theorem sentiment_label_opposite (a : Q) :
  sentiment_label (- a) = opposite_label (sentiment_label a).
Proof.
  unfold sentiment_label.
  destruct (Qlt_le_dec 0.1 a), (Qlt_le_dec 0.1 (- a)),
    (Qlt_le_dec a (-0.1)), (Qlt_le_dec (- a) (-0.1));
    cbn; try reflexivity; exfalso; lra.
Qed.

(** X9. The colour of a score in the news table: green exactly for the
    positive scores, red exactly for the negative ones, grey exactly for
    zero. *)
Theorem color_sentiment_sign (val : Q) :
  (color_sentiment val = "color: green" ↔ (0 < val)%Q)
  ∧ (color_sentiment val = "color: red" ↔ (val < 0)%Q)
  ∧ (color_sentiment val = "color: grey" ↔ (val == 0)%Q).
Proof.
  unfold color_sentiment.
  destruct (Qlt_le_dec 0 val) as [Hpos|Hle]; [|destruct (Qlt_le_dec val 0) as [Hneg|Hge]].
  - repeat split; try done; intros H; exfalso; lra.
  - repeat split; try done; intros H; exfalso; lra.
  - repeat split; try done; intros H; try (exfalso; lra). lra.
Qed.

(** X10. The table and the label use different bounds.  A [Positive]
    average is green and a [Negative] one is red, but a [Neutral] average
    is grey only when it is zero: between [-0.1] and [0.1] the label says
    neutral while the colour shows the sign. *)
Theorem sentiment_label_color (a : Q) :
  (sentiment_label a = Positive → color_sentiment a = "color: green")
  ∧ (sentiment_label a = Negative → color_sentiment a = "color: red")
  ∧ (sentiment_label a = Neutral →
     (color_sentiment a = "color: grey" ↔ (a == 0)%Q)
     ∧ ((0 < a)%Q → color_sentiment a = "color: green")
     ∧ ((a < 0)%Q → color_sentiment a = "color: red")).
Proof.
  destruct (color_sentiment_sign a) as (Hgreen & Hred & Hgrey).
  split; [|split].
  - intros Hpos%sentiment_label_Positive. apply Hgreen. lra.
  - intros Hneg%sentiment_label_Negative. apply Hred. lra.
  - intros _. split; [exact Hgrey|]. split; [apply Hgreen | apply Hred].
Qed.

Lemma sentiment_label_color_witness :
  color_sentiment 0.5 = "color: green"
  ∧ color_sentiment (-0.5) = "color: red"
  ∧ color_sentiment 0.05 = "color: green".
Proof.
  split; [|split].
  - destruct (sentiment_label_color 0.5) as (Hpos & _ & _).
    apply Hpos. reflexivity.
  - destruct (sentiment_label_color (-0.5)) as (_ & Hneg & _).
    apply Hneg. reflexivity.
  - destruct (sentiment_label_color 0.05) as (_ & _ & Hneutral).
    destruct (Hneutral eq_refl) as (_ & Hgreen & _).
    apply Hgreen. vm_compute. reflexivity.
Defined.

(** ** More on the main script *)

Lemma fmap_zip_with_scored (items : list NewsItem) (ps : list Q) :
  (λ r, (Title r, Sentiment_Score r, color_sentiment (Sentiment_Score r)))
    <$> zip_with scored items ps
  = zip_with table_cell items ps.
Proof.
  revert ps. induction items as [|item items IH]; intros [|p ps]; [done..|].
  cbn. by rewrite IH.
Qed.

(** X11. The table of lines 99-102 on what [analyze_sentiment] returned:
    for the empty news list the data frame has no column and the selection
    of ['Title'] and ['Sentiment Score'] raises [KeyError]; for any other
    list it gives one cell per item, with the title, the polarity and the
    colour of the polarity, in input order. *)
Theorem styled_title_score_analyze_sentiment score (items : list NewsItem)
    (avg : Q) (df : DataFrame) :
  analyze_sentiment score items = Ok (avg, df) →
  (items = [] ∧ styled_title_score df = Raise KeyError)
  ∨ (items ≠ []
     ∧ ∃ ps, assigns score items ps
             ∧ styled_title_score df = Ok (zip_with table_cell items ps)
             ∧ length (zip_with table_cell items ps) = length items).
Proof.
  intros Hrun. destruct (analyze_sentiment_Ok_inv _ _ _ _ Hrun) as [ps Hps].
  rewrite (analyze_sentiment_assigns _ _ _ Hps) in Hrun.
  pose proof (length_zip_with_same_l table_cell _ _ _ Hps) as Hlen.
  destruct Hps as [|item p items ps Hp Hps]; injection Hrun as <- <-.
  - by left.
  - right. split; [done|]. exists (p :: ps). split; [by constructor|].
    split; [|exact Hlen]. unfold styled_title_score.
    cbn [columns rows pd_DataFrame zip_with].
    rewrite bool_decide_eq_true_2
      by (split; [apply list_elem_of_here
                 | apply list_elem_of_further, list_elem_of_here]).
    f_equal. apply (fmap_zip_with_scored (item :: items) (p :: ps)).
Qed.

Lemma styled_title_score_analyze_sentiment_witness :
  ∃ ps, assigns Demo.lexicon [Demo.beats; Demo.untitled] ps
        ∧ styled_title_score
            (pd_DataFrame [scored Demo.beats 0.6; scored Demo.untitled 0])
          = Ok (zip_with table_cell [Demo.beats; Demo.untitled] ps).
Proof.
  destruct (styled_title_score_analyze_sentiment Demo.lexicon
              [Demo.beats; Demo.untitled] (sum [0.6; 0] / inject_Z 2)%Q
              (pd_DataFrame [scored Demo.beats 0.6; scored Demo.untitled 0]))
    as [[Hnil _] | (_ & ps & Hps & Hcells & _)].
  - reflexivity.
  - discriminate.
  - by exists ps.
Defined.

(** The ways the [try] block can end, with what it has shown by then. *)
Lemma try_block_cases score fetch (ticker_symbol time_period : string) :
  (∃ x, fetch ticker_symbol time_period = Raise x
        ∧ try_block score fetch ticker_symbol time_period = ([], Some x))
  ∨ ∃ close stock_news,
      fetch ticker_symbol time_period = Ok (close, stock_news)
      ∧ ((∃ x, analyze_sentiment score stock_news = Raise x
               ∧ try_block score fetch ticker_symbol time_period = ([], Some x))
         ∨ ∃ avg_score news_df,
             analyze_sentiment score stock_news = Ok (avg_score, news_df)
             ∧ ((close = []
                 ∧ try_block score fetch ticker_symbol time_period
                   = ([], Some IndexError))
                ∨ ∃ current_price,
                    last close = Some current_price
                    ∧ ((stock_news = []
                        ∧ avg_score = 0%Q
                        ∧ try_block score fetch ticker_symbol time_period
                          = ([CurrentPrice current_price;
                              MarketSentiment (label_text Neutral) 0;
                              PriceTrend ticker_symbol close;
                              NewsHeading], Some KeyError))
                       ∨ (stock_news ≠ []
                          ∧ ∃ ps, assigns score stock_news ps
                             ∧ try_block score fetch ticker_symbol time_period
                               = ([CurrentPrice current_price;
                                   MarketSentiment
                                     (label_text (sentiment_label avg_score))
                                     avg_score;
                                   PriceTrend ticker_symbol close;
                                   NewsHeading;
                                   NewsTable (zip_with table_cell stock_news ps)],
                                  None))))).
Proof.
  unfold try_block.
  destruct (fetch ticker_symbol time_period) as [[close stock_news]|x];
    [right; exists close, stock_news; split; [done|] | left; by exists x].
  destruct (analyze_sentiment score stock_news) as [[avg_score news_df]|x] eqn:Hrun;
    [right; exists avg_score, news_df; split; [done|] | left; by exists x].
  destruct (last close) as [current_price|] eqn:Hlast;
    [right; exists current_price; split; [done|]
    | left; by apply last_None in Hlast].
  destruct (styled_title_score_analyze_sentiment _ _ _ _ Hrun)
    as [[-> Hstyled] | (Hne & ps & Hps & Hstyled & _)]; rewrite Hstyled.
  - left. injection Hrun as <- _. done.
  - right. split; [done|]. by exists ps.
Qed.

(** X12. The page consists of the error message alone exactly when the
    market-data call fails, when the price series is empty, or when the
    scoring call fails on a headline: nothing tells the three apart. *)
Theorem main_error_only_iff score fetch (ticker_symbol time_period : string) :
  ticker_symbol ≠ "" →
  main score fetch ticker_symbol time_period = [ErrorMessage ticker_symbol]
  ↔ (∃ x, fetch ticker_symbol time_period = Raise x)
    ∨ ∃ close stock_news,
        fetch ticker_symbol time_period = Ok (close, stock_news)
        ∧ (close = [] ∨ ∃ x, analyze_sentiment score stock_news = Raise x).
Proof.
  intros Hticker. rewrite (main_try_block _ _ _ _ Hticker).
  destruct (try_block_cases score fetch ticker_symbol time_period)
    as [(x & Hfetch & ->)
       | (close & news & Hfetch
          & [(x & Hrun & ->)
            | (avg & df & Hrun
               & [[-> ->]
                 | (price & Hlast
                    & [(-> & -> & ->) | (Hne & ps & Hps & ->)])])])].
  - split; [intros _; left; by exists x | done].
  - split; [intros _|done]. right. exists close, news. split; [done|].
    right. by exists x.
  - split; [intros _|done]. right. exists [], news. split; [done|]. by left.
  - split; [discriminate|].
    intros [[x Hx] | (close' & news' & Hfetch' & [-> | [x Hx]])]; [congruence|..].
    + rewrite Hfetch in Hfetch'. injection Hfetch' as Hclose _.
      rewrite Hclose in Hlast. discriminate Hlast.
    + rewrite Hfetch in Hfetch'. injection Hfetch' as _ Hnews.
      rewrite <- Hnews, Hrun in Hx. discriminate Hx.
  - split; [discriminate|].
    intros [[x Hx] | (close' & news' & Hfetch' & [-> | [x Hx]])]; [congruence|..].
    + rewrite Hfetch in Hfetch'. injection Hfetch' as Hclose _.
      rewrite Hclose in Hlast. discriminate Hlast.
    + rewrite Hfetch in Hfetch'. injection Hfetch' as _ Hnews.
      rewrite <- Hnews, Hrun in Hx. discriminate Hx.
Qed.

Lemma main_error_only_iff_witness :
  main Demo.lexicon (get_stock_data Demo.history Demo.news) "NONE" "1mo"
  = [ErrorMessage "NONE"]
  ∧ main Demo.lexicon (get_stock_data Demo.history Demo.news) "GOOG" "1mo"
    = [ErrorMessage "GOOG"].
Proof.
  split.
  - apply main_error_only_iff; [discriminate|].
    right. exists [], []. split; [reflexivity | by left].
  - apply main_error_only_iff; [discriminate|].
    left. by exists (FetchError "HTTPError").
Defined.



(** The shapes of the page. *)
Lemma main_cases score fetch (ticker_symbol time_period : string) :
  let page := main score fetch ticker_symbol time_period in
  page = []
  ∨ page = [ErrorMessage ticker_symbol]
  ∨ (∃ a b c d, page = [CurrentPrice a; MarketSentiment b c; PriceTrend ticker_symbol d;
                        NewsHeading; ErrorMessage ticker_symbol])
  ∨ (∃ a b c d cells, page = [CurrentPrice a; MarketSentiment b c;
                              PriceTrend ticker_symbol d; NewsHeading;
                              NewsTable cells]).
Proof.
  cbv zeta. unfold main.
  destruct (String.eqb ticker_symbol ""); [by left|right].
  destruct (try_block_cases score fetch ticker_symbol time_period)
    as [(x & _ & ->)
       | (close & news & _
          & [(x & _ & ->)
            | (avg & df & _
               & [[_ ->]
                 | (price & _
                    & [(_ & _ & ->) | (_ & ps & _ & ->)])])])]; cbn.
  - by left.
  - by left.
  - by left.
  - right. left. by eexists _, _, _, _.
  - right. right. by eexists _, _, _, _, _.
Qed.

(** X14. Whatever the inputs, the error message appears at most once on the
    page, as its last element and with the ticker the user typed, and never
    on a page that shows the news table. *)
Theorem main_error_message_last score fetch (ticker_symbol time_period : string) :
  (∀ (i : nat) (s : string),
     main score fetch ticker_symbol time_period !! i = Some (ErrorMessage s) →
     s = ticker_symbol
     ∧ S i = length (main score fetch ticker_symbol time_period))
  ∧ (∀ cells s,
       NewsTable cells ∈ main score fetch ticker_symbol time_period →
       ErrorMessage s ∉ main score fetch ticker_symbol time_period).
Proof.
  destruct (main_cases score fetch ticker_symbol time_period)
    as [-> | [-> | [(a & b & c & d & ->) | (a & b & c & d & cells & ->)]]].
  - split; [intros i s Hi; by destruct i |]. intros cells s Hin. by inversion Hin.
  - split.
    + intros [|i] s Hi; cbn in Hi; [by injection Hi as <- | by destruct i].
    + intros cells s Hin. apply list_elem_of_In in Hin. cbn in Hin.
      by destruct Hin as [? | []].
  - split.
    + intros i s Hi. do 5 (destruct i as [|i]; cbn in Hi; [try done|]).
      * by injection Hi as <-.
      * done.
    + intros cells s Hin. apply list_elem_of_In in Hin. cbn in Hin.
      by destruct Hin as [? | [? | [? | [? | [? | []]]]]].
  - split.
    + intros i s Hi. do 5 (destruct i as [|i]; cbn in Hi; [done|]). done.
    + intros cells' s _ Hin. apply list_elem_of_In in Hin. cbn in Hin.
      by destruct Hin as [? | [? | [? | [? | [? | []]]]]].
Qed.

(** X15. With prices and a scored news list, the page ends with the error
    message if and only if the news list is empty: the empty data frame of
    line 37 has no ['Title'] column for line 100, so a ticker without news
    shows its price, a neutral sentiment, the chart, and then the message
    that no data could be found. *)
Theorem main_error_iff_no_news score fetch (ticker_symbol time_period : string)
    (close : list Q) (current_price : Q) (stock_news : list NewsItem)
    (avg_score : Q) (news_df : DataFrame) :
  ticker_symbol ≠ "" →
  fetch ticker_symbol time_period = Ok (close, stock_news) →
  last close = Some current_price →
  analyze_sentiment score stock_news = Ok (avg_score, news_df) →
  (ErrorMessage ticker_symbol ∈ main score fetch ticker_symbol time_period
   ↔ stock_news = [])
  ∧ (stock_news = [] →
     main score fetch ticker_symbol time_period
     = [CurrentPrice current_price;
        MarketSentiment (label_text Neutral) 0;
        PriceTrend ticker_symbol close;
        NewsHeading;
        ErrorMessage ticker_symbol]).
Proof.
  intros Hticker Hfetch Hlast Hrun.
  rewrite (main_try_block _ _ _ _ Hticker).
  destruct (try_block_cases score fetch ticker_symbol time_period)
    as [(x & Hfetch' & _)
       | (close' & news' & Hfetch' & Hcases)]; [congruence|].
  rewrite Hfetch in Hfetch'. injection Hfetch' as <- <-.
  destruct Hcases
    as [(x & Hrun' & _)
       | (avg' & df' & _
          & [[-> _]
            | (price & Hlast'
               & [(-> & _ & ->) | (Hne & ps' & _ & ->)])])]; [congruence|done|..].
  - rewrite Hlast in Hlast'. injection Hlast' as <-. split; [|done].
    split; [done|]. intros _.
    do 4 apply list_elem_of_further. apply list_elem_of_here.
  - split; [|done]. split; [|done]. intros Hin.
    apply list_elem_of_In in Hin. cbn in Hin.
    by destruct Hin as [? | [? | [? | [? | [? | []]]]]].
Qed.

Lemma main_error_iff_no_news_witness :
  main Demo.lexicon (λ _ _, Ok ([250.5; 251]%Q, [])) "TSLA" "1mo"
  = [CurrentPrice 251;
     MarketSentiment (label_text Neutral) 0;
     PriceTrend "TSLA" [250.5; 251]%Q;
     NewsHeading;
     ErrorMessage "TSLA"].
Proof.
  destruct (main_error_iff_no_news Demo.lexicon (λ _ _, Ok ([250.5; 251]%Q, []))
              "TSLA" "1mo" [250.5; 251]%Q 251%Q [] 0%Q pd_DataFrame_empty)
    as [_ Hpage].
  - discriminate.
  - reflexivity.
  - reflexivity.
  - reflexivity.
  - by apply Hpage.
Defined.

(** X16. The time period only selects prices.  [get_stock_data] asks the
    news by ticker alone, so for two periods whose price series are both
    available and non-empty, everything the page shows about the news (the
    sentiment, the news heading, the table or the error message) is the
    same. *)
Theorem main_period_irrelevant score history news
    (ticker_symbol period1 period2 : string) (close1 close2 : list Q) :
  history ticker_symbol period1 = Ok close1 →
  history ticker_symbol period2 = Ok close2 →
  close1 ≠ [] →
  close2 ≠ [] →
  List.filter about_news
    (main score (get_stock_data history news) ticker_symbol period1)
  = List.filter about_news
      (main score (get_stock_data history news) ticker_symbol period2).
Proof.
  intros Hhist1 Hhist2 Hne1%last_is_Some Hne2%last_is_Some.
  destruct Hne1 as [price1 Hlast1], Hne2 as [price2 Hlast2].
  unfold main. destruct (String.eqb ticker_symbol ""); [reflexivity|].
  unfold try_block, get_stock_data. rewrite Hhist1, Hhist2. cbn.
  destruct (news ticker_symbol) as [stock_news|x]; cbn; [|reflexivity].
  destruct (analyze_sentiment score stock_news) as [[avg_score news_df]|x];
    [|reflexivity].
  rewrite Hlast1, Hlast2.
  destruct (styled_title_score news_df) as [cells|x]; reflexivity.
Qed.

Lemma main_period_irrelevant_witness :
  List.filter about_news
    (main Demo.lexicon (get_stock_data Demo.history Demo.news) "TSLA" "1mo")
  = List.filter about_news
      (main Demo.lexicon (get_stock_data Demo.history Demo.news) "TSLA" "1y").
Proof.
  apply (main_period_irrelevant Demo.lexicon Demo.history Demo.news
           "TSLA" "1mo" "1y" [250.5; 251]%Q [198; 250.5; 251]%Q).
  - reflexivity.
  - reflexivity.
  - discriminate.
  - discriminate.
Defined.

(** X17. A sentiment on the page is always the analysed one: when the page
    shows a market sentiment, the market-data call returned a non-empty
    price series, [analyze_sentiment] returned the average shown, and the
    text shown is the label of that average.  In particular no sentiment is
    shown after a failure of the scoring call. *)
Theorem main_sentiment_shown score fetch (ticker_symbol time_period : string)
    (text : string) (avg_score : Q) :
  MarketSentiment text avg_score ∈ main score fetch ticker_symbol time_period →
  ∃ close stock_news news_df,
    fetch ticker_symbol time_period = Ok (close, stock_news)
    ∧ close ≠ []
    ∧ analyze_sentiment score stock_news = Ok (avg_score, news_df)
    ∧ text = label_text (sentiment_label avg_score).
Proof.
  unfold main. destruct (String.eqb ticker_symbol "");
    [intros Hin; by inversion Hin|].
  unfold try_block.
  destruct (fetch ticker_symbol time_period) as [[close stock_news]|x];
    [|intros Hin; apply list_elem_of_In in Hin; cbn in Hin; by destruct Hin as [? | []]].
  destruct (analyze_sentiment score stock_news) as [[avg news_df]|x] eqn:Hrun;
    [|intros Hin; apply list_elem_of_In in Hin; cbn in Hin; by destruct Hin as [? | []]].
  destruct (last close) as [current_price|] eqn:Hlast;
    [|intros Hin; apply list_elem_of_In in Hin; cbn in Hin; by destruct Hin as [? | []]].
  assert (Hne : close ≠ []) by (intros ->; discriminate Hlast).
  intros Hin. exists close, stock_news, news_df. split; [done|]. split; [done|].
  assert (Hshown : MarketSentiment text avg_score
                   = MarketSentiment (label_text (sentiment_label avg)) avg).
  { destruct (styled_title_score news_df) as [cells|x];
      apply list_elem_of_In in Hin; cbn in Hin;
      by destruct Hin as [? | [? | [? | [? | [? | []]]]]]. }
  injection Hshown as -> ->. by rewrite Hrun.
Qed.

Lemma main_sentiment_shown_witness :
  ∃ close stock_news news_df,
    get_stock_data Demo.history Demo.news "TSLA" "1mo" = Ok (close, stock_news)
    ∧ close ≠ []
    ∧ analyze_sentiment Demo.lexicon stock_news
      = Ok ((0 + 0.6 + -0.6 + 0.5) / inject_Z 3, news_df)%Q.
Proof.
  destruct (main_sentiment_shown Demo.lexicon
              (get_stock_data Demo.history Demo.news) "TSLA" "1mo"
              (label_text Positive) ((0 + 0.6 + -0.6 + 0.5) / inject_Z 3)%Q)
    as (close & stock_news & news_df & Hfetch & Hne & Hrun & _).
  - apply list_elem_of_further, list_elem_of_here.
  - by exists close, stock_news, news_df.
Defined.

Lemma main_error_message_last_witness :
  "GOOG" = "GOOG"
  ∧ 1 = length (main Demo.lexicon (get_stock_data Demo.history Demo.news) "GOOG" "1mo").
Proof.
  destruct (main_error_message_last Demo.lexicon
              (get_stock_data Demo.history Demo.news) "GOOG" "1mo") as [Hlast _].
  apply (Hlast 0 "GOOG"). reflexivity.
Defined.
